(** * dht11-sensor: a verification development for [main.py]

    The program joins a wireless network, samples a DHT11 sensor on a
    fixed cadence and posts every reading to an InfluxDB endpoint.  This
    file embeds [main.py] function by function and states its behaviour
    as theorems.

    Conventions of the embedding.
    - Python values that come out of [json.load] are the type [pyval];
      a [dict] is a finite map with string keys.
    - Everything the program asks of its surroundings (the file system,
      the JSON decoder, the radio, the sensor driver, the HTTP client)
      is answered by an environment [env]; what the program does to
      its surroundings is recorded, in order, in the [trace] of a
      [world], which also holds the clock.
    - Effectful functions live in the monad [M]: a computation maps a
      world to an [outcome] (a value, a raised exception, or the exit
      status passed to [sys.exit]) and the world it leaves behind. *)

From Stdlib Require Import ZArith String Ascii List Lia.
From Stdlib Require Import Decimal DecimalString DecimalPos DecimalN.
From Stdlib Require Import Floats.SpecFloat.
From stdpp Require Import gmap strings.
From Equations Require Import Equations.
From Equations.Prop Require Import Logic.

#[local] Set Warnings "-register-all".
#[local] Open Scope string_scope.
#[local] Open Scope Z_scope.

(** ** Python values and exceptions *)

(** The values [json.load] builds.  A JSON number is modelled when it is
    an integer, which is what every numeric key of the configuration
    holds ([port], [reading_wait_time]). *)
Inductive pyval :=
| PNone
| PBool (b : bool)
| PInt (z : Z)
| PStr (s : string)
| PList (l : list pyval)
| PDict (m : gmap string pyval).

(** Exception classes, as far as the [except] clauses of the program
    tell them apart.  [OSError] stands for [OSError] and those of its
    subclasses that are not [FileNotFoundError]; [ValueError] likewise
    for the subclasses that are not [JSONDecodeError]; [Exception] is
    any other class. *)
Inductive exn_class :=
| FileNotFoundError
| OSError
| JSONDecodeError
| ValueError
| TypeError
| AttributeError
| Exception.

Record exn := Exn { exn_cls : exn_class; exn_msg : string }.

(** [isinstance(e, OSError)], which is what [except OSError] tests. *)
Definition is_OSError (c : exn_class) : bool :=
  match c with
  | FileNotFoundError | OSError => true
  | _ => false
  end.

(** [isinstance(e, ValueError)]. *)
Definition is_ValueError (c : exn_class) : bool :=
  match c with
  | JSONDecodeError | ValueError => true
  | _ => false
  end.

(** How a computation ends: with a value, with an exception on its way
    up, or in [sys.exit(code)]. *)
Inductive outcome (A : Type) :=
| Return (a : A)
| Raise (e : exn)
| Exit (code : Z).
Arguments Return {A} a.
Arguments Raise {A} e.
Arguments Exit {A} code.

(** What a call into a library answers: a value or an exception. *)
Inductive answer (A : Type) :=
| Ans (a : A)
| Err (e : exn).
Arguments Ans {A} a.
Arguments Err {A} e.

(** ** Text *)

(** [str(n)] for an [int]. *)
Definition str_int (z : Z) : string :=
  NilEmpty.string_of_int (Z.to_int z).

Definition str_N (n : N) : string :=
  NilEmpty.string_of_uint (N.to_uint n).

(** [d.get(key, default)].  Only a [dict] has the method; on any other
    value the attribute lookup fails. *)
Definition py_get (d : pyval) (key : string) (dflt : pyval) : outcome pyval :=
  match d with
  | PDict m => Return (default dflt (m !! key))
  | _ => Raise (Exn AttributeError "object has no attribute 'get'")
  end.

(** ** Floats and the [.1f] presentation *)

(** A sensor value is a Python [float], an IEEE 754 binary64 given by
    its sign, mantissa and exponent ([spec_float]); an [int] handed to
    the [f] presentation type is converted to [float] first, so the
    formatting below starts from the float. *)
Abbreviation float := spec_float.

(** The quotient [num / den] ([den > 0]) rounded to the nearest integer,
    ties to the even one: the rounding of [float.__format__]. *)
Definition round_half_even (num den : Z) : Z :=
  let q := num / den in
  let r := num mod den in
  match 2 * r ?= den with
  | Lt => q
  | Gt => q + 1
  | Eq => if Z.even q then q else q + 1
  end.

(** [m * 2^e] in tenths, correctly rounded. *)
Definition tenths (m : positive) (e : Z) : Z :=
  if 0 <=? e then 10 * Z.pos m * 2 ^ e
  else round_half_even (10 * Z.pos m) (2 ^ (- e)).

(** The digits of a number of tenths: integer part, point, one digit. *)
Definition fixed1 (neg : bool) (t : Z) : string :=
  (if neg then "-" else "") +:+
  str_N (Z.to_N (t / 10)) +:+ "." +:+ str_N (Z.to_N (t mod 10)).

(** [format(x, ".1f")]. *)
Definition format_1f (x : float) : string :=
  match x with
  | S754_zero s => fixed1 s 0
  | S754_infinity s => if s then "-inf" else "inf"
  | S754_nan => "nan"
  | S754_finite s m e => fixed1 s (tenths m e)
  end.







(** The line-protocol point of the main loop:
    [f"dht_sensor,sensor_id=esp8266 temperature={temperature:.1f},humidity={humidity:.1f}"]. *)
Definition format_data (temperature humidity : float) : string :=
  "dht_sensor,sensor_id=esp8266 temperature=" +:+ format_1f temperature +:+
  ",humidity=" +:+ format_1f humidity.

(** [nearest x num den]: [x] is a positive normalised binary64 within
    half a unit in the last place of [num / den], that is, the float a
    decimal literal of that value denotes. *)
Definition nearest (x : float) (num den : Z) : bool :=
  match x with
  | S754_finite false m e =>
      (2 ^ 52 <=? Z.pos m) && (Z.pos m <? 2 ^ 53) && (e <? 0) &&
      (2 * Z.abs (den * Z.pos m - num * 2 ^ (- e)) <=? den)
  | _ => false
  end.

(** The floats of the decimal literals [23.456], [55.0], [21.0] and
    [40.0]. *)
Definition f23_456 : float := S754_finite false 6602277053725147 (-48).
Definition f55_0 : float := S754_finite false 7740561859543040 (-47).
Definition f21_0 : float := S754_finite false 5910974510923776 (-48).
Definition f40_0 : float := S754_finite false 5629499534213120 (-47).


(** ** The surroundings *)

Record response := Response { status_code : Z; text : string }.

(** What the driver answers to [measure()], [temperature()] and
    [humidity()] in one sampling. *)
Record measurement := Measurement {
  on_measure : answer unit;
  on_temperature : answer float;
  on_humidity : answer float
}.

(** The handle [dht.DHT11(machine.Pin(pin))] returns. *)
Record DHT11 := Sensor { dht_pin : Z }.

(** The answers of the surroundings.  Calls that the program makes more
    than once are answered by position: [link n] is what the [n]-th
    call of [wlan.isconnected()] returns, [dht n] what the driver does
    in the [n]-th sampling, [http n] what the [n]-th [requests.post]
    does.  [repr] is [str] on a [list] or [dict], which the program
    never looks into. *)
Record env := Env {
  fs_open : string -> answer string;
  json_load : string -> answer pyval;
  link : nat -> bool;
  ifconfig : string;
  dht_new : Z -> answer unit;
  dht : nat -> measurement;
  http : nat -> answer response;
  repr : pyval -> string
}.

(** What the program does to its surroundings. *)
Inductive event :=
| Print (line : string)
| WlanActive (on : bool)
| WlanConnect (ssid key : pyval)
| Sleep (secs : Z)
| SensorInit (pin : Z)
| Measure
| Post (url : string) (headers : gmap string string) (data : string).

(** The state the program runs in: the clock in seconds ([time.time()]
    counts whole seconds on the board), how many calls of each
    position-answered kind were made, and the events so far.  Time
    passes in [time.sleep] only, and by exactly the seconds asked for. *)
Record world := World {
  now : Z;
  polls : nat;
  samples : nat;
  posts : nat;
  trace : list event
}.

Definition w_emit (ev : event) (w : world) : world :=
  World (now w) (polls w) (samples w) (posts w) (trace w ++ [ev]).

(** [time.sleep(secs)]: the clock moves on by [secs]. *)
Definition w_sleep (secs : Z) (w : world) : world :=
  World (now w + secs) (polls w) (samples w) (posts w) (trace w ++ [Sleep secs]).

Definition w_polled (w : world) : world :=
  World (now w) (S (polls w)) (samples w) (posts w) (trace w).

Definition w_sampled (w : world) : world :=
  World (now w) (polls w) (S (samples w)) (posts w) (trace w ++ [Measure]).

Definition w_posted (url : string) (headers : gmap string string) (data : string)
    (w : world) : world :=
  World (now w) (polls w) (samples w) (S (posts w))
        (trace w ++ [Post url headers data]).

(** ** The monad of effectful code *)

Definition M (A : Type) : Type := world -> outcome A * world.

#[export] Instance outcome_ret : MRet outcome := @Return.
#[export] Instance outcome_bind : MBind outcome := fun A B f o =>
  match o with
  | Return a => f a
  | Raise e => Raise e
  | Exit c => Exit c
  end.

#[export] Instance M_ret : MRet M := fun A a w => (Return a, w).
#[export] Instance M_bind : MBind M := fun A B f m w =>
  match m w with
  | (Return a, w') => f a w'
  | (Raise e, w') => (Raise e, w')
  | (Exit c, w') => (Exit c, w')
  end.

(** A pure computation inside an effectful one. *)
Definition lift {A} (o : outcome A) : M A := fun w => (o, w).

Definition raise {A} (e : exn) : M A := fun w => (Raise e, w).

(** [sys.exit(code)]. *)
Definition sys_exit {A} (code : Z) : M A := fun w => (Exit code, w).

(** [try: body  except ...: handler].  [handler e] is [None] when no
    [except] clause matches [e]; what [body] did before raising stays
    done. *)
Definition try_except {A} (body : M A) (handler : exn -> option (M A)) : M A :=
  fun w =>
    match body w with
    | (Raise e, w') =>
        match handler e with
        | Some h => h w'
        | None => (Raise e, w')
        end
    | r => r
    end.

Definition of_answer {A} (a : answer A) : M A :=
  match a with
  | Ans v => mret v
  | Err e => raise e
  end.

Definition emit (ev : event) : M unit := fun w => (Return tt, w_emit ev w).

(** [print(line)]. *)
Definition print (line : string) : M unit := emit (Print line).

(** [time.time()]. *)
Definition time_time : M Z := fun w => (Return (now w), w).

Definition sleep_for (secs : Z) : M unit := fun w => (Return tt, w_sleep secs w).

(** [time.sleep(v)] on a configuration value: a [bool] counts as the
    integer it is, a negative length and a value that is not a number
    are rejected. *)
Definition time_sleep (v : pyval) : M unit :=
  match v with
  | PInt n =>
      if n <? 0 then raise (Exn ValueError "sleep length must be non-negative")
      else sleep_for n
  | PBool b => sleep_for (if b then 1 else 0)
  | _ => raise (Exn TypeError "a number is required")
  end.

(** ** The program *)

Definition DEFAULT_WAIT_TIME : Z := 60.

(** The default of the parameter [timeout_sec] of [connect_to_wifi]. *)
Definition timeout_sec_default : Z := 30.

Section Program.

Variable E : env.

(** [str(v)], which is also what a replacement field without a format
    specification renders. *)
Definition py_str (v : pyval) : string :=
  match v with
  | PNone => "None"
  | PBool b => if b then "True" else "False"
  | PInt z => str_int z
  | PStr s => s
  | PList _ | PDict _ => repr E v
  end.

(** [open(path)] and reading the file. *)
Definition open_read (path : string) : M string := of_answer (fs_open E path).

Definition load_config (config_file : string) : M pyval :=
  try_except
    (f ← open_read config_file;
     of_answer (json_load E f))
    (fun e =>
       match exn_cls e with
       | FileNotFoundError =>
           Some (print ("Error: Config file '" +:+ config_file +:+ "' not found.");;
                 mret (PDict ∅))
       | JSONDecodeError =>
           Some (print ("Error: Invalid JSON format in config file '" +:+
                        config_file +:+ "'.");;
                 mret (PDict ∅))
       | _ => None
       end).

(** [wlan.isconnected()]: answered by position. *)
Definition wlan_isconnected : M bool :=
  fun w => (Return (link E (polls w)), w_polled w).

(** The [while not wlan.isconnected()] loop of [connect_to_wifi].  Every
    round that does not leave the loop sleeps one second, so the time
    left before [timeout_sec] is exceeded goes down. *)
Equations? wait_connected (timeout_sec start_time : Z) (w : world) :
    outcome bool * world
  by wf (Z.to_nat (timeout_sec + 1 - (now w - start_time))) lt :=
wait_connected timeout_sec start_time w with inspect (link E (polls w)) := {
  | exist _ true _ => (Return true, w_polled w)
  | exist _ false _ with inspect (timeout_sec <? now w - start_time) := {
    | exist _ true _ =>
        (Return false, w_emit (Print "Connection timed out.") (w_polled w))
    | exist _ false Hle =>
        wait_connected timeout_sec start_time (w_sleep 1 (w_polled w)) } }.
Proof. simpl. apply Z.ltb_ge in Hle. lia. Qed.

Definition connect_to_wifi (ssid key : pyval) (timeout_sec : Z) : M bool :=
  emit (WlanActive true);;
  connected ← wlan_isconnected;
  if negb connected then
    print "Connecting to network...";;
    emit (WlanConnect ssid key);;
    start_time ← time_time;
    wait_connected timeout_sec start_time
  else mret true.

(** [wlan.ifconfig()], rendered. *)
Definition wlan_ifconfig : M string := mret (ifconfig E).

Definition init_dht_sensor (pin : Z) : M DHT11 :=
  try_except
    (emit (SensorInit pin);;
     of_answer (dht_new E pin);;
     mret (Sensor pin))
    (fun e =>
       if is_ValueError (exn_cls e) then
         Some (raise (Exn ValueError ("Invalid pin number: " +:+ str_int pin)))
       else if is_OSError (exn_cls e) then
         Some (raise (Exn OSError "Error initializing DHT11 sensor"))
       else None).

(** The three driver calls of one sampling.  [sensor.measure()] opens
    the sampling; the two getters read what that sampling holds. *)
Definition sensor_measure (sensor : DHT11) : M unit :=
  fun w => of_answer (on_measure (dht E (samples w))) (w_sampled w).

Definition sensor_temperature (sensor : DHT11) : M float :=
  fun w => of_answer (on_temperature (dht E (Nat.pred (samples w)))) w.

Definition sensor_humidity (sensor : DHT11) : M float :=
  fun w => of_answer (on_humidity (dht E (Nat.pred (samples w)))) w.

Definition get_temperature_and_humidity (sensor : DHT11) :
    M (option float * option float) :=
  try_except
    (sensor_measure sensor;;
     temperature ← sensor_temperature sensor;
     sleep_for 1;;
     humidity ← sensor_humidity sensor;
     mret (Some temperature, Some humidity))
    (fun e =>
       if is_OSError (exn_cls e) then
         Some (print ("Error reading DHT11 sensor: " +:+ exn_msg e);;
               mret (None, None))
       else None).

Definition set_influxdb_headers (config : pyval) : outcome (gmap string string) :=
  influxdb_config ← py_get config "influxdb" (PDict ∅);
  token ← py_get influxdb_config "token" PNone;
  mret (<["Authorization" := "Token " +:+ py_str token]>
        (<["Content-Type" := "text/plain; charset=utf-8"]>
        (<["Accept" := "application/json"]> ∅))).

Definition get_influxdb_url (config : pyval) : outcome string :=
  influxdb_config ← py_get config "influxdb" (PDict ∅);
  host ← py_get influxdb_config "host" (PStr "localhost");
  port ← py_get influxdb_config "port" (PInt 8086);
  bucket ← py_get influxdb_config "bucket" PNone;
  org ← py_get influxdb_config "org" PNone;
  mret (py_str host +:+ ":" +:+ py_str port +:+ "/api/v2/write?org=" +:+
        py_str org +:+ "&bucket=" +:+ py_str bucket +:+ "&precision=ns").

(** [requests.post(url, headers=headers, data=data)]: answered by
    position, with a response or with the exception the transport
    raises. *)
Definition requests_post (url : string) (headers : gmap string string)
    (data : string) : M response :=
  fun w => of_answer (http E (posts w)) (w_posted url headers data w).

Definition send_to_influxdb (url : string) (headers : gmap string string)
    (data : string) : M unit :=
  response ← requests_post url headers data;
  (if status_code response =? 204 then
     print "Data sent to InfluxDB"
   else
     print "Failed to send data to InfluxDB";;
     print ("Status code: " +:+ str_int (status_code response));;
     print ("Response: " +:+ text response));;
  mret tt.

(** What the bootstrap hands to the main loop. *)
Record session := Session {
  config : pyval;
  headers : gmap string string;
  influxdb_url : string;
  sensor : DHT11
}.

(** [__main__] up to the main loop. *)
Definition bootstrap : M session :=
  config ← load_config "config.json";
  wifi_config ← lift (py_get config "wifi" (PDict ∅));
  ssid ← lift (py_get wifi_config "ssid" PNone);
  key ← lift (py_get wifi_config "key" PNone);
  connected ← connect_to_wifi ssid key timeout_sec_default;
  (if connected : bool then
     print "WiFi connected successfully.";;
     netcfg ← wlan_ifconfig;
     print ("Network config: " +:+ netcfg)
   else
     print "Failed to connect to WiFi. Exiting...";;
     sys_exit 1);;
  headers ← lift (set_influxdb_headers config);
  influxdb_url ← lift (get_influxdb_url config);
  sensor ← init_dht_sensor 4;
  mret (Session config headers influxdb_url sensor).

(** The first half of the loop body: sample, and deliver when both
    values are there. *)
Definition sample_and_send (s : session) : M unit :=
  '(temperature, humidity) ← get_temperature_and_humidity (sensor s);
  match temperature, humidity with
  | Some t, Some h =>
      let data := format_data t h in
      print ("Data: " +:+ data);;
      send_to_influxdb (influxdb_url s) (headers s) data
  | _, _ => mret tt
  end.

(** The second half: wait for the configured time or the default. *)
Definition pause (s : session) : M unit :=
  wait_time ← lift (py_get (config s) "reading_wait_time" (PInt DEFAULT_WAIT_TIME));
  time_sleep wait_time.

(** One round of [while True]. *)
Definition cycle (s : session) : M unit :=
  sample_and_send s;; pause s.

(** The first [n] rounds of [while True].  [Return tt] says that the
    loop is about to start round [n + 1]; anything else, that it was
    left. *)
Fixpoint steady (n : nat) (s : session) : M unit :=
  match n with
  | O => mret tt
  | S k => cycle s;; steady k s
  end.

(** The program, followed for [n] rounds of its main loop. *)
Definition main (n : nat) : M unit :=
  s ← bootstrap;
  steady n s.

End Program.

(** What "I/O failure during measurement" means for one sampling: the
    exception of the first driver call that fails, if any. *)
Definition sampling_failure (m : measurement) : option exn :=
  match on_measure m with
  | Err e => Some e
  | Ans _ =>
      match on_temperature m with
      | Err e => Some e
      | Ans _ =>
          match on_humidity m with
          | Err e => Some e
          | Ans _ => None
          end
      end
  end.

(** The world at power-on, the clock reading [t]. *)
Definition boot (t : Z) : world := World t 0 0 0 [].

(** ** Vocabulary of the statements *)

(** The world after the driver calls of one sampling that went through. *)
Definition w_measured (w : world) : world := w_sleep 1 (w_sampled w).

(** A sampling whose first failing driver call raises: the world
    reached at that point. *)
Definition w_failed (m : measurement) (w : world) : world :=
  match on_measure m, on_temperature m with
  | Ans _, Ans _ => w_measured w
  | _, _ => w_sampled w
  end.

(** [k] rounds of the polling loop that found the link down: a poll and
    a sleep of one second each. *)
Fixpoint w_rounds (k : nat) (w : world) : world :=
  match k with
  | O => w
  | S k' => w_rounds k' (w_sleep 1 (w_polled w))
  end.

(** Events of the sensor and of the delivery. *)
Definition sensor_or_delivery (ev : event) : bool :=
  match ev with
  | SensorInit _ | Measure | Post _ _ _ => true
  | _ => false
  end.

(** [w'] comes after [w] and nothing in between touched the sensor or
    the endpoint. *)
Definition quiet (w w' : world) : Prop :=
  samples w' = samples w /\ posts w' = posts w /\
  exists added,
    trace w' = (trace w ++ added)%list /\
    existsb sensor_or_delivery added = false.

(** The number of seconds [pause] sleeps when [time.sleep] accepts the
    configured value. *)
Definition wait_seconds (config : pyval) : option Z :=
  match py_get config "reading_wait_time" (PInt DEFAULT_WAIT_TIME) with
  | Return (PInt n) => if n <? 0 then None else Some n
  | Return (PBool b) => Some (if b then 1 else 0)
  | _ => None
  end.

(** The world after a delivery that was answered [r]. *)
Definition w_delivered (url : string) (headers : gmap string string)
    (data : string) (r : response) (w : world) : world :=
  if status_code r =? 204 then
    w_emit (Print "Data sent to InfluxDB") (w_posted url headers data w)
  else
    w_emit (Print ("Response: " +:+ text r))
      (w_emit (Print ("Status code: " +:+ str_int (status_code r)))
         (w_emit (Print "Failed to send data to InfluxDB")
            (w_posted url headers data w))).

(** ** Sample surroundings *)

(** The configuration of the end-to-end scenario. *)
Definition scenario_config : pyval :=
  PDict (<["wifi" := PDict (<["ssid" := PStr "net"]> (<["key" := PStr "pw"]> ∅))]>
        (<["influxdb" := PDict (<["host" := PStr "db.local"]>
                               (<["port" := PInt 9999]>
                               (<["bucket" := PStr "b"]>
                               (<["org" := PStr "o"]>
                               (<["token" := PStr "tok"]> ∅)))))]> ∅)).

(** A board whose file holds [scenario_config], whose link is up from
    the first poll, whose sensor reads (21.0, 40.0) and whose endpoint
    answers 204. *)
Definition E_scenario : env := {|
  fs_open := fun path =>
    if String.eqb path "config.json" then Ans "scenario"
    else Err (Exn FileNotFoundError "No such file or directory");
  json_load := fun f =>
    if String.eqb f "scenario" then Ans scenario_config
    else Err (Exn JSONDecodeError "Expecting value");
  link := fun _ => true;
  ifconfig := "('192.168.1.7', '255.255.255.0', '192.168.1.1', '192.168.1.1')";
  dht_new := fun _ => Ans tt;
  dht := fun _ => Measurement (Ans tt) (Ans f21_0) (Ans f40_0);
  http := fun _ => Ans (Response 204 "");
  repr := fun _ => "{}"
|}.

(** A board without a configuration file whose link never comes up. *)
Definition E_offline : env := {|
  fs_open := fun _ => Err (Exn FileNotFoundError "No such file or directory");
  json_load := fun _ => Err (Exn JSONDecodeError "Expecting value");
  link := fun _ => false;
  ifconfig := "('0.0.0.0', '0.0.0.0', '0.0.0.0', '0.0.0.0')";
  dht_new := fun _ => Ans tt;
  dht := fun _ => Measurement (Ans tt) (Ans f21_0) (Ans f40_0);
  http := fun _ => Ans (Response 204 "");
  repr := fun _ => "{}"
|}.

(** A board whose file is not JSON, whose sensor times out in every
    other sampling and whose endpoint answers 500. *)
Definition E_flaky : env := {|
  fs_open := fun _ => Ans "not json";
  json_load := fun _ => Err (Exn JSONDecodeError "Expecting value");
  link := fun _ => true;
  ifconfig := "('192.168.1.7', '255.255.255.0', '192.168.1.1', '192.168.1.1')";
  dht_new := fun _ => Ans tt;
  dht := fun n =>
    if Nat.even n then Measurement (Err (Exn OSError "[Errno 110] ETIMEDOUT"))
                                   (Ans f21_0) (Ans f40_0)
    else Measurement (Ans tt) (Ans f21_0) (Ans f40_0);
  http := fun _ => Ans (Response 500 "internal error");
  repr := fun _ => "{}"
|}.



(** The [influxdb] section the two endpoint builders read: the value
    under the key, or the empty mapping when the key is absent; [None]
    when the configuration or that value is not a mapping. *)
Definition influxdb_section (cfg : pyval) : option (gmap string pyval) :=
  match cfg with
  | PDict m =>
      match default (PDict ∅) (m !! "influxdb") with
      | PDict d => Some d
      | _ => None
      end
  | _ => None
  end.

(** An event that, if it is a delivery, goes to the endpoint of the
    session and carries the line of some reading. *)
Definition to_session_endpoint (s : session) (ev : event) : Prop :=
  match ev with
  | Post url hs data =>
      url = influxdb_url s /\ hs = headers s /\
      exists t h, data = format_data t h
  | _ => True
  end.

(** A board whose configuration file cannot be read. *)
Definition E_locked : env := {|
  fs_open := fun _ => Err (Exn OSError "[Errno 13] Permission denied");
  json_load := json_load E_offline;
  link := link E_offline;
  ifconfig := ifconfig E_offline;
  dht_new := dht_new E_offline;
  dht := dht E_offline;
  http := http E_offline;
  repr := repr E_offline
|}.


(** A session whose [reading_wait_time] is not a number. *)
Definition stuck_session : session := {|
  config := PDict (<["reading_wait_time" := PStr "soon"]> ∅);
  headers := ∅;
  influxdb_url := "localhost:8086/api/v2/write?org=None&bucket=None&precision=ns";
  sensor := Sensor 4
|}.

(** ** Rendering lemmas *)







Lemma tenths_nonneg (m : positive) (e : Z) : 0 <= tenths m e.
Proof.
  unfold tenths. destruct (0 <=? e) eqn:He.
  - apply Z.leb_le in He. apply Z.mul_nonneg_nonneg; [lia|].
    apply Z.pow_nonneg; lia.
  - apply Z.leb_gt in He. unfold round_half_even.
    assert (Hden : 0 < 2 ^ (- e)) by (apply Z.pow_pos_nonneg; lia).
    assert (Hq : 0 <= 10 * Z.pos m / 2 ^ (- e)) by (apply Z.div_pos; lia).
    destruct (2 * ((10 * Z.pos m) mod 2 ^ (- e)) ?= 2 ^ (- e)); [|lia|lia].
    destruct (Z.even _); lia.
Qed.







(** ** Running the monad *)

(** Unfolds the monad operations of one step of a computation. *)
Ltac step :=
  unfold mbind, M_bind, outcome_bind, mret, M_ret, outcome_ret,
    lift, raise, sys_exit, of_answer, emit, print, time_time, sleep_for;
  cbn beta iota.

(** Runs a computation as far as its text determines it. *)
Ltac run := repeat (progress (step; simpl)).

Lemma bind_Return {A B} (m : M A) (k : A -> M B) (w w' : world) (a : A) :
  m w = (Return a, w') -> (m ≫= k) w = k a w'.
Proof. intros H. unfold mbind, M_bind. rewrite H. reflexivity. Qed.

Lemma bind_Raise {A B} (m : M A) (k : A -> M B) (w w' : world) (e : exn) :
  m w = (Raise e, w') -> (m ≫= k) w = (Raise e, w').
Proof. intros H. unfold mbind, M_bind. rewrite H. reflexivity. Qed.

Lemma bind_Exit {A B} (m : M A) (k : A -> M B) (w w' : world) (c : Z) :
  m w = (Exit c, w') -> (m ≫= k) w = (Exit c, w').
Proof. intros H. unfold mbind, M_bind. rewrite H. reflexivity. Qed.

(** ** Sampling *)

Section Sampling.

Variable E : env.
Variable sensor : DHT11.

Lemma sample_success (w : world) (t h : float) :
  dht E (samples w) = Measurement (Ans tt) (Ans t) (Ans h) ->
  get_temperature_and_humidity E sensor w = (Return (Some t, Some h), w_measured w).
Proof.
  intros Hm.
  unfold get_temperature_and_humidity, try_except, sensor_measure,
    sensor_temperature, sensor_humidity.
  run. repeat (rewrite Hm; run). reflexivity.
Qed.

Lemma sample_failure (w : world) (e : exn) :
  sampling_failure (dht E (samples w)) = Some e ->
  get_temperature_and_humidity E sensor w =
    if is_OSError (exn_cls e) then
      (Return (None, None),
       w_emit (Print ("Error reading DHT11 sensor: " +:+ exn_msg e))
              (w_failed (dht E (samples w)) w))
    else (Raise e, w_failed (dht E (samples w)) w).
Proof.
  unfold sampling_failure, w_failed.
  destruct (dht E (samples w)) as [[[] | e1] [t | e2] [h | e3]] eqn:Hm;
    simpl; intros [= <-];
    unfold get_temperature_and_humidity, try_except, sensor_measure,
      sensor_temperature, sensor_humidity;
    run; repeat (rewrite Hm; run);
    destruct (is_OSError (exn_cls _)); reflexivity.
Qed.

Lemma sampling_failure_None (m : measurement) :
  sampling_failure m = None ->
  exists t h, m = Measurement (Ans tt) (Ans t) (Ans h).
Proof.
  destruct m as [[[] | e1] [t | e2] [h | e3]]; simpl; try discriminate.
  intros _. exists t, h. reflexivity.
Qed.

End Sampling.

(** ** Theorems *)



(** C4.  A sampling that returns, returns two values or two [None]s,
    never one of each.  When a driver call fails with an I/O error
    ([OSError]), the sampling prints a diagnostic and returns
    [(None, None)] instead of passing the exception on; when no driver
    call fails, it returns the two values the driver gave.  (An
    exception of another class is not handled here and goes up.) *)
Theorem sample_both_or_neither (E : env) (sensor : DHT11) (w : world) :
  (forall v w', get_temperature_and_humidity E sensor w = (Return v, w') ->
     (exists t h, v = (Some t, Some h)) \/ v = (None, None)) /\
  (forall e, sampling_failure (dht E (samples w)) = Some e ->
     is_OSError (exn_cls e) = true ->
     exists w', get_temperature_and_humidity E sensor w =
       (Return (None, None),
        w_emit (Print ("Error reading DHT11 sensor: " +:+ exn_msg e)) w')) /\
  (forall t h, dht E (samples w) = Measurement (Ans tt) (Ans t) (Ans h) ->
     get_temperature_and_humidity E sensor w = (Return (Some t, Some h), w_measured w)) /\
  (forall e, sampling_failure (dht E (samples w)) = Some e ->
     is_OSError (exn_cls e) = false ->
     fst (get_temperature_and_humidity E sensor w) = Raise e).
Proof.
  split; [|split; [|split]]; cycle 3.
  { intros e Hf Hos. rewrite (sample_failure E sensor w e Hf), Hos. reflexivity. }
  - intros v w' Hrun.
    destruct (sampling_failure (dht E (samples w))) as [e|] eqn:Hf.
    + rewrite (sample_failure E sensor w e Hf) in Hrun.
      destruct (is_OSError (exn_cls e)); [|discriminate].
      injection Hrun as <- _. right. reflexivity.
    + destruct (sampling_failure_None _ Hf) as (t & h & Hm).
      rewrite (sample_success E sensor w t h Hm) in Hrun.
      injection Hrun as <- _. left. exists t, h. reflexivity.
  - intros e Hf Hos. rewrite (sample_failure E sensor w e Hf), Hos.
    eexists. reflexivity.
  - intros t h Hm. apply sample_success, Hm.
Qed.

(** C5.  Given a response, [send_to_influxdb] returns normally; it
    prints the success line exactly when the status is 204, and for any
    other status the failure line, the status code and the body. *)
Theorem send_to_influxdb_204_only (E : env) (url : string)
    (headers : gmap string string) (data : string) (w : world) (r : response) :
  http E (posts w) = Ans r ->
  (status_code r = 204 ->
     send_to_influxdb E url headers data w =
       (Return tt,
        w_emit (Print "Data sent to InfluxDB") (w_posted url headers data w))) /\
  (status_code r <> 204 ->
     send_to_influxdb E url headers data w =
       (Return tt,
        w_emit (Print ("Response: " +:+ text r))
          (w_emit (Print ("Status code: " +:+ str_int (status_code r)))
             (w_emit (Print "Failed to send data to InfluxDB")
                (w_posted url headers data w))))).
Proof.
  intros Hr. unfold send_to_influxdb, requests_post. run. rewrite Hr. run.
  split; intros Hs.
  - rewrite Hs. reflexivity.
  - apply Z.eqb_neq in Hs. rewrite Hs. reflexivity.
Qed.

(** C8.  [load_config] returns the empty mapping and prints the
    not-found diagnostic when the file does not exist, returns the
    empty mapping and prints the invalid-JSON diagnostic when the
    decoder rejects the text, and returns the decoded value, printing
    nothing, when the file is well formed; the two diagnostics
    differ. *)
Theorem load_config_never_aborts (E : env) (config_file : string) (w : world) :
  (forall e, fs_open E config_file = Err e -> exn_cls e = FileNotFoundError ->
     load_config E config_file w =
       (Return (PDict ∅),
        w_emit (Print ("Error: Config file '" +:+ config_file +:+ "' not found.")) w)) /\
  (forall f e, fs_open E config_file = Ans f -> json_load E f = Err e ->
     exn_cls e = JSONDecodeError ->
     load_config E config_file w =
       (Return (PDict ∅),
        w_emit (Print ("Error: Invalid JSON format in config file '" +:+
                       config_file +:+ "'.")) w)) /\
  (forall f v, fs_open E config_file = Ans f -> json_load E f = Ans v ->
     load_config E config_file w = (Return v, w)) /\
  "Error: Config file '" +:+ config_file +:+ "' not found." <>
  "Error: Invalid JSON format in config file '" +:+ config_file +:+ "'.".
Proof.
  repeat split.
  - intros e Ho Hc. unfold load_config, try_except, open_read. run.
    rewrite Ho. run. rewrite Hc. reflexivity.
  - intros f e Ho Hj Hc. unfold load_config, try_except, open_read. run.
    rewrite Ho. run. rewrite Hj. run. rewrite Hc. reflexivity.
  - intros f v Ho Hj. unfold load_config, try_except, open_read. run.
    rewrite Ho. run. rewrite Hj. reflexivity.
  - discriminate.
Qed.


(** C10.  For a configuration whose [influxdb] section is absent or a
    mapping, [set_influxdb_headers] returns exactly three headers:
    [Authorization], [Content-Type] fixed to
    [text/plain; charset=utf-8] and [Accept] fixed to
    [application/json]; [Authorization] is [Token ] followed by the
    rendered token, and the literal [Token None] when the token is
    absent. *)
Theorem set_influxdb_headers_three (E : env) (m d : gmap string pyval) :
  default (PDict ∅) (m !! "influxdb") = PDict d ->
  exists hs : gmap string string,
    set_influxdb_headers E (PDict m) = Return hs /\
    size hs = 3%nat /\
    (forall k, is_Some (hs !! k) <->
               k = "Authorization" \/ k = "Content-Type" \/ k = "Accept") /\
    hs !! "Content-Type" = Some "text/plain; charset=utf-8" /\
    hs !! "Accept" = Some "application/json" /\
    hs !! "Authorization" =
      Some ("Token " +:+ py_str E (default PNone (d !! "token"))) /\
    (d !! "token" = None -> hs !! "Authorization" = Some "Token None").
Proof.
  intros Hsec. eexists. split.
  { unfold set_influxdb_headers. simpl. rewrite Hsec. simpl. reflexivity. }
  split; [reflexivity|].
  split.
  { intros k. split.
    - intros Hk.
      destruct (decide (k = "Authorization")) as [|H1]; [auto|].
      destruct (decide (k = "Content-Type")) as [|H2]; [auto|].
      destruct (decide (k = "Accept")) as [|H3]; [auto|].
      rewrite !lookup_insert_ne, lookup_empty in Hk by congruence.
      destruct Hk as [? Hk]. discriminate Hk.
    - intros [-> | [-> | ->]]; eexists; reflexivity. }
  split; [reflexivity|]. split; [reflexivity|]. split; [reflexivity|].
  intros Ht. rewrite lookup_insert_eq, Ht. reflexivity.
Qed.

(** C2, as amended.  For a configuration without an [influxdb] section,
    [get_influxdb_url] does not raise and returns the URL with host
    [localhost] and port [8086]; the [org] and [bucket] parameters read
    [None], the rendering of the absent value. *)
Theorem get_influxdb_url_defaults (E : env) (m : gmap string pyval) :
  m !! "influxdb" = None ->
  get_influxdb_url E (PDict m) =
    Return "localhost:8086/api/v2/write?org=None&bucket=None&precision=ns".
Proof.
  intros Hsec. unfold get_influxdb_url. simpl. rewrite Hsec. reflexivity.
Qed.

(** ** Worlds that leave the sensor and the endpoint alone *)

Lemma quiet_refl (w : world) : quiet w w.
Proof.
  repeat split. exists []. rewrite app_nil_r. split; reflexivity.
Qed.

Lemma quiet_trans (w1 w2 w3 : world) : quiet w1 w2 -> quiet w2 w3 -> quiet w1 w3.
Proof.
  intros (Hs1 & Hp1 & a1 & Ht1 & Hq1) (Hs2 & Hp2 & a2 & Ht2 & Hq2).
  split; [congruence|]. split; [congruence|].
  exists (a1 ++ a2)%list. split.
  - rewrite Ht2, Ht1, <- app_assoc. reflexivity.
  - rewrite existsb_app, Hq1, Hq2. reflexivity.
Qed.

Lemma quiet_emit (ev : event) (w w' : world) :
  sensor_or_delivery ev = false -> quiet w w' -> quiet w (w_emit ev w').
Proof.
  intros Hev Hq. eapply quiet_trans; [exact Hq|].
  repeat split. exists [ev]. split; [reflexivity|]. simpl. rewrite Hev. reflexivity.
Qed.

Lemma quiet_sleep (secs : Z) (w w' : world) :
  quiet w w' -> quiet w (w_sleep secs w').
Proof.
  intros Hq. eapply quiet_trans; [exact Hq|].
  repeat split. exists [Sleep secs]. split; reflexivity.
Qed.

Lemma quiet_polled (w w' : world) : quiet w w' -> quiet w (w_polled w').
Proof.
  intros Hq. eapply quiet_trans; [exact Hq|].
  repeat split. exists []. simpl. rewrite app_nil_r. split; reflexivity.
Qed.

(** ** The association loop *)

Section Association.

Variable E : env.

(** One round of the [while] loop, as the source writes it. *)
Lemma wait_connected_step (timeout_sec start_time : Z) (w : world) :
  wait_connected E timeout_sec start_time w =
    if link E (polls w) then (Return true, w_polled w)
    else if timeout_sec <? now w - start_time then
      (Return false, w_emit (Print "Connection timed out.") (w_polled w))
    else wait_connected E timeout_sec start_time (w_sleep 1 (w_polled w)).
Proof.
  funelim (wait_connected E timeout_sec start_time w);
    try match goal with H : link _ _ = _ |- _ => rewrite H end;
    try match goal with H : (_ <? _) = _ |- _ => rewrite H end;
    reflexivity.
Qed.

Lemma w_rounds_now (k : nat) (w : world) :
  now (w_rounds k w) = now w + Z.of_nat k.
Proof.
  revert w. induction k as [|k IH]; intros w; simpl; [lia|].
  rewrite IH. simpl. lia.
Qed.

Lemma w_rounds_polls (k : nat) (w : world) :
  polls (w_rounds k w) = (polls w + k)%nat.
Proof.
  revert w. induction k as [|k IH]; intros w; simpl; [lia|].
  rewrite IH. simpl. lia.
Qed.

Lemma w_rounds_trace (k : nat) (w : world) :
  trace (w_rounds k w) = (trace w ++ repeat (Sleep 1) k)%list.
Proof.
  revert w. induction k as [|k IH]; intros w; simpl.
  - rewrite app_nil_r. reflexivity.
  - rewrite IH. simpl. rewrite <- app_assoc. reflexivity.
Qed.

(** With the link down for good, the loop sleeps until the time since
    [start_time] exceeds [timeout_sec] and then gives up. *)
Lemma wait_connected_never (timeout_sec start_time : Z) :
  (forall n, link E n = false) ->
  forall (k : nat) (w : world),
    k = Z.to_nat (timeout_sec + 1 - (now w - start_time)) ->
    wait_connected E timeout_sec start_time w =
      (Return false,
       w_emit (Print "Connection timed out.") (w_polled (w_rounds k w))).
Proof.
  intros Hdown. induction k as [|k IH]; intros w Hk;
    rewrite wait_connected_step, Hdown.
  - assert (Hlt : (timeout_sec <? now w - start_time) = true)
      by (apply Z.ltb_lt; lia).
    rewrite Hlt. reflexivity.
  - assert (Hge : (timeout_sec <? now w - start_time) = false)
      by (apply Z.ltb_ge; lia).
    rewrite Hge. rewrite IH; [reflexivity|]. simpl. lia.
Qed.

(** The loop touches neither the sensor nor the endpoint. *)
Lemma wait_connected_quiet (timeout_sec start_time : Z) (w : world) :
  quiet w (snd (wait_connected E timeout_sec start_time w)).
Proof.
  funelim (wait_connected E timeout_sec start_time w).
  - apply quiet_polled, quiet_refl.
  - apply (quiet_emit (Print "Connection timed out.")); [reflexivity|].
    apply quiet_polled, quiet_refl.
  - eapply quiet_trans; [|exact H]. apply quiet_sleep, quiet_polled, quiet_refl.
Qed.

(** [connect_to_wifi], its straight-line part run. *)
Lemma connect_to_wifi_unfold (ssid key : pyval) (timeout_sec : Z) (w : world) :
  connect_to_wifi E ssid key timeout_sec w =
    if link E (polls w) then
      (Return true, w_polled (w_emit (WlanActive true) w))
    else
      wait_connected E timeout_sec (now w)
        (w_emit (WlanConnect ssid key)
           (w_emit (Print "Connecting to network...")
              (w_polled (w_emit (WlanActive true) w)))).
Proof.
  unfold connect_to_wifi, wlan_isconnected. run.
  destruct (link E (polls w)); reflexivity.
Qed.

Lemma connect_to_wifi_quiet (ssid key : pyval) (timeout_sec : Z) (w : world) :
  quiet w (snd (connect_to_wifi E ssid key timeout_sec w)).
Proof.
  rewrite connect_to_wifi_unfold.
  destruct (link E (polls w)).
  - apply quiet_polled, quiet_emit; [reflexivity | apply quiet_refl].
  - eapply quiet_trans; [|apply wait_connected_quiet].
    do 2 (apply quiet_emit; [reflexivity|]).
    apply quiet_polled, quiet_emit; [reflexivity | apply quiet_refl].
Qed.

End Association.

Lemma load_config_quiet (E : env) (config_file : string) (w : world) :
  quiet w (snd (load_config E config_file w)).
Proof.
  unfold load_config, try_except, open_read. run.
  destruct (fs_open E config_file) as [f | e]; run.
  - destruct (json_load E f) as [v | e]; run.
    + apply quiet_refl.
    + destruct (exn_cls e); run;
        first [ apply quiet_refl
              | apply (quiet_emit (Print _) w w); [reflexivity | apply quiet_refl] ].
  - destruct (exn_cls e); run;
      first [ apply quiet_refl
            | apply (quiet_emit (Print _) w w); [reflexivity | apply quiet_refl] ].
Qed.

Lemma bind_lift {A B} (o : outcome A) (k : A -> M B) (w : world) :
  (lift o ≫= k) w =
    match o with
    | Return a => k a w
    | Raise e => (Raise e, w)
    | Exit c => (Exit c, w)
    end.
Proof. reflexivity. Qed.

(** C6.  [connect_to_wifi] returns [True] at once, without calling
    [wlan.connect] and without sleeping, when the interface is already
    associated.  When association never succeeds, it calls
    [wlan.connect] once, polls once per second and returns [False] when
    the time since the attempt began exceeds [timeout_sec], that is
    [timeout_sec + 1] seconds after it began (31 seconds with the
    default of 30). *)
Theorem connect_to_wifi_bounded (E : env) (ssid key : pyval) (timeout_sec : Z)
    (w : world) :
  (link E (polls w) = true ->
     exists w', connect_to_wifi E ssid key timeout_sec w = (Return true, w') /\
       now w' = now w /\
       trace w' = (trace w ++ [WlanActive true])%list) /\
  ((forall n, link E n = false) -> 0 <= timeout_sec ->
     exists w', connect_to_wifi E ssid key timeout_sec w = (Return false, w') /\
       now w' - now w = timeout_sec + 1 /\
       now w' - now w <= timeout_sec + 1 /\
       polls w' = (polls w + Z.to_nat timeout_sec + 3)%nat /\
       trace w' =
         (trace w ++
          [WlanActive true; Print "Connecting to network..."; WlanConnect ssid key] ++
          repeat (Sleep 1) (Z.to_nat (timeout_sec + 1)) ++
          [Print "Connection timed out."])%list) /\
  timeout_sec_default = 30.
Proof.
  split; [|split; [|reflexivity]].
  - intros Hup. unfold connect_to_wifi, wlan_isconnected. run. rewrite Hup. run.
    eexists. split; [reflexivity|]. split; reflexivity.
  - intros Hdown Ht. unfold connect_to_wifi, wlan_isconnected. run.
    rewrite Hdown. run.
    match goal with
    | |- context [wait_connected E ?t ?s ?w0] =>
        rewrite (wait_connected_never E t s Hdown (Z.to_nat (t + 1)) w0)
          by (simpl; f_equal; lia)
    end.
    eexists. split; [reflexivity|].
    simpl. rewrite w_rounds_now, w_rounds_polls, w_rounds_trace. simpl.
    repeat split; try lia.
    rewrite <- !app_assoc. reflexivity.
Qed.

Lemma connect_to_wifi_bounded_witness :
  exists w', connect_to_wifi E_offline PNone PNone timeout_sec_default (boot 1000) =
               (Return false, w') /\
             now w' - now (boot 1000) = 31.
Proof.
  destruct (proj1 (proj2 (connect_to_wifi_bounded E_offline PNone PNone
                            timeout_sec_default (boot 1000))))
    as (w' & Hrun & Hnow & _).
  - intros n. reflexivity.
  - unfold timeout_sec_default. lia.
  - exists w'. split; [exact Hrun | exact Hnow].
Defined.

(** C7.  When the connection attempt of the bootstrap returns [False],
    the program prints that it failed and ends in [sys.exit(1)]: the
    bootstrap yields no session, so no endpoint is built, and neither
    the sensor nor the endpoint is touched, in the bootstrap or later. *)
Theorem wifi_failure_exits_1 (E : env) (w w1 w2 : world)
    (cfg wifi_config ssid key : pyval) :
  load_config E "config.json" w = (Return cfg, w1) ->
  py_get cfg "wifi" (PDict ∅) = Return wifi_config ->
  py_get wifi_config "ssid" PNone = Return ssid ->
  py_get wifi_config "key" PNone = Return key ->
  connect_to_wifi E ssid key timeout_sec_default w1 = (Return false, w2) ->
  let w3 := w_emit (Print "Failed to connect to WiFi. Exiting...") w2 in
  bootstrap E w = (Exit 1, w3) /\
  (forall n, main E n w = (Exit 1, w3)) /\
  samples w3 = samples w /\ posts w3 = posts w /\
  exists added,
    trace w3 = (trace w ++ added)%list /\
    existsb sensor_or_delivery added = false.
Proof.
  intros Hload Hwifi Hssid Hkey Hconn w3.
  assert (Hboot : bootstrap E w = (Exit 1, w3)).
  { unfold bootstrap.
    rewrite (bind_Return _ _ _ _ _ Hload).
    rewrite bind_lift, Hwifi, bind_lift, Hssid, bind_lift, Hkey.
    rewrite (bind_Return _ _ _ _ _ Hconn). reflexivity. }
  split; [exact Hboot|].
  split; [intros n; unfold main; apply (bind_Exit _ _ _ _ _ Hboot)|].
  assert (Hq : quiet w w3).
  { pose proof (load_config_quiet E "config.json" w) as H1.
    pose proof (connect_to_wifi_quiet E ssid key timeout_sec_default w1) as H2.
    rewrite Hload in H1. rewrite Hconn in H2. simpl in H1, H2.
    apply quiet_emit; [reflexivity|]. eapply quiet_trans; eassumption. }
  exact Hq.
Qed.

(** ** The main loop *)

Section MainLoop.

Variable E : env.
Variable s : session.

Lemma send_to_influxdb_answered (url : string) (hs : gmap string string)
    (data : string) (w : world) (r : response) :
  http E (posts w) = Ans r ->
  send_to_influxdb E url hs data w = (Return tt, w_delivered url hs data r w).
Proof.
  intros Hr. unfold send_to_influxdb, requests_post, w_delivered. run.
  rewrite Hr. run. destruct (status_code r =? 204); reflexivity.
Qed.

Lemma send_to_influxdb_transport_error (url : string) (hs : gmap string string)
    (data : string) (w : world) (e : exn) :
  http E (posts w) = Err e ->
  send_to_influxdb E url hs data w = (Raise e, w_posted url hs data w).
Proof.
  intros Hr. unfold send_to_influxdb, requests_post. run. rewrite Hr. reflexivity.
Qed.


(** The first half of the loop body, by what the sampling and the
    delivery met. *)
Lemma sample_and_send_delivered (w : world) (t h : float) (r : response) :
  dht E (samples w) = Measurement (Ans tt) (Ans t) (Ans h) ->
  http E (posts w) = Ans r ->
  sample_and_send E s w =
    (Return tt,
     w_delivered (influxdb_url s) (headers s) (format_data t h) r
       (w_emit (Print ("Data: " +:+ format_data t h)) (w_measured w))).
Proof.
  intros Hm Hr. unfold sample_and_send.
  rewrite (bind_Return _ _ _ _ _ (sample_success E (sensor s) w t h Hm)).
  erewrite bind_Return; [|reflexivity].
  apply send_to_influxdb_answered. exact Hr.
Qed.

Lemma sample_and_send_transport_error (w : world) (t h : float) (e : exn) :
  dht E (samples w) = Measurement (Ans tt) (Ans t) (Ans h) ->
  http E (posts w) = Err e ->
  sample_and_send E s w =
    (Raise e,
     w_posted (influxdb_url s) (headers s) (format_data t h)
       (w_emit (Print ("Data: " +:+ format_data t h)) (w_measured w))).
Proof.
  intros Hm Hr. unfold sample_and_send.
  rewrite (bind_Return _ _ _ _ _ (sample_success E (sensor s) w t h Hm)).
  erewrite bind_Return; [|reflexivity].
  apply send_to_influxdb_transport_error. exact Hr.
Qed.

Lemma sample_and_send_sampling_failed (w : world) (e : exn) :
  sampling_failure (dht E (samples w)) = Some e ->
  is_OSError (exn_cls e) = true ->
  sample_and_send E s w =
    (Return tt,
     w_emit (Print ("Error reading DHT11 sensor: " +:+ exn_msg e))
       (w_failed (dht E (samples w)) w)).
Proof.
  intros Hf Hos. unfold sample_and_send.
  pose proof (sample_failure E (sensor s) w e Hf) as Hrun. rewrite Hos in Hrun.
  rewrite (bind_Return _ _ _ _ _ Hrun). reflexivity.
Qed.




Lemma w_failed_samples (m : measurement) (w : world) :
  samples (w_failed m w) = S (samples w).
Proof. unfold w_failed. destruct (on_measure m), (on_temperature m); reflexivity. Qed.

Lemma w_delivered_samples (url : string) (hs : gmap string string) (data : string)
    (r : response) (w : world) :
  samples (w_delivered url hs data r w) = samples w.
Proof. unfold w_delivered. destruct (status_code r =? 204); reflexivity. Qed.


End MainLoop.


(** ** The statements at sample surroundings *)

(** C2 as the specification has it, with empty [org] and [bucket], does
    not hold: for the empty configuration the two parameters read
    [None]. *)
Lemma get_influxdb_url_org_bucket_not_empty :
  (∅ : gmap string pyval) !! "influxdb" = None /\
  get_influxdb_url E_offline (PDict ∅) =
    Return "localhost:8086/api/v2/write?org=None&bucket=None&precision=ns" /\
  get_influxdb_url E_offline (PDict ∅) <>
    Return "localhost:8086/api/v2/write?org=&bucket=&precision=ns".
Proof.
  split; [reflexivity|]. split; [reflexivity|]. discriminate.
Qed.

Lemma get_influxdb_url_defaults_witness :
  get_influxdb_url E_offline (PDict (<["wifi" := PDict ∅]> ∅)) =
    Return "localhost:8086/api/v2/write?org=None&bucket=None&precision=ns".
Proof.
  apply (get_influxdb_url_defaults E_offline (<["wifi" := PDict ∅]> ∅)).
  reflexivity.
Defined.



Lemma sample_both_or_neither_witness :
  exists w', get_temperature_and_humidity E_flaky (Sensor 4) (boot 0) =
    (Return (None, None),
     w_emit (Print "Error reading DHT11 sensor: [Errno 110] ETIMEDOUT") w').
Proof.
  exact (proj1 (proj2 (sample_both_or_neither E_flaky (Sensor 4) (boot 0)))
           (Exn OSError "[Errno 110] ETIMEDOUT") eq_refl eq_refl).
Defined.

Lemma send_to_influxdb_204_only_witness :
  send_to_influxdb E_scenario "db.local:9999/api/v2/write" ∅ "x" (boot 0) =
    (Return tt,
     w_emit (Print "Data sent to InfluxDB")
       (w_posted "db.local:9999/api/v2/write" ∅ "x" (boot 0))) /\
  send_to_influxdb E_flaky "db.local:9999/api/v2/write" ∅ "x" (boot 0) =
    (Return tt,
     w_emit (Print "Response: internal error")
       (w_emit (Print "Status code: 500")
          (w_emit (Print "Failed to send data to InfluxDB")
             (w_posted "db.local:9999/api/v2/write" ∅ "x" (boot 0))))).
Proof.
  split.
  - apply (proj1 (send_to_influxdb_204_only E_scenario _ ∅ "x" (boot 0)
                    (Response 204 "") eq_refl)).
    reflexivity.
  - apply (proj2 (send_to_influxdb_204_only E_flaky _ ∅ "x" (boot 0)
                    (Response 500 "internal error") eq_refl)).
    discriminate.
Defined.

Lemma wifi_failure_exits_1_witness :
  main E_offline 3 (boot 0) =
    (Exit 1,
     w_emit (Print "Failed to connect to WiFi. Exiting...")
       (snd (connect_to_wifi E_offline PNone PNone timeout_sec_default
               (w_emit (Print "Error: Config file 'config.json' not found.")
                  (boot 0))))).
Proof.
  refine (proj1 (proj2 (wifi_failure_exits_1 E_offline (boot 0)
            (w_emit (Print "Error: Config file 'config.json' not found.") (boot 0))
            (snd (connect_to_wifi E_offline PNone PNone timeout_sec_default
                    (w_emit (Print "Error: Config file 'config.json' not found.")
                       (boot 0))))
            (PDict ∅) (PDict ∅) PNone PNone _ _ _ _ _)) 3%nat);
    [reflexivity | reflexivity | reflexivity | reflexivity | vm_compute; reflexivity].
Defined.

Lemma load_config_never_aborts_witness :
  load_config E_offline "config.json" (boot 0) =
    (Return (PDict ∅),
     w_emit (Print "Error: Config file 'config.json' not found.") (boot 0)) /\
  load_config E_flaky "config.json" (boot 0) =
    (Return (PDict ∅),
     w_emit (Print "Error: Invalid JSON format in config file 'config.json'.") (boot 0)) /\
  load_config E_scenario "config.json" (boot 0) = (Return scenario_config, boot 0).
Proof.
  split; [|split].
  - exact (proj1 (load_config_never_aborts E_offline "config.json" (boot 0))
             (Exn FileNotFoundError "No such file or directory") eq_refl eq_refl).
  - exact (proj1 (proj2 (load_config_never_aborts E_flaky "config.json" (boot 0)))
             "not json" (Exn JSONDecodeError "Expecting value") eq_refl eq_refl eq_refl).
  - exact (proj1 (proj2 (proj2 (load_config_never_aborts E_scenario "config.json" (boot 0))))
             "scenario" scenario_config eq_refl eq_refl).
Defined.


Lemma set_influxdb_headers_three_witness :
  exists hs : gmap string string,
    set_influxdb_headers E_offline (PDict ∅) = Return hs /\
    size hs = 3%nat /\
    hs !! "Authorization" = Some "Token None".
Proof.
  destruct (set_influxdb_headers_three E_offline ∅ ∅)
    as (hs & Hrun & Hsize & _ & _ & _ & _ & Hnone); [reflexivity|].
  exists hs. split; [exact Hrun|]. split; [exact Hsize|].
  apply Hnone. reflexivity.
Defined.

(** The sample floats are the ones their names say. *)
Example sample_floats_nearest :
  nearest f23_456 23456 1000 = true /\ nearest f55_0 55 1 = true /\
  nearest f21_0 21 1 = true /\ nearest f40_0 40 1 = true.
Proof. vm_compute. repeat split; reflexivity. Qed.

(** The end-to-end scenario of the specification: the configured
    endpoint receives the line for the reading (21.0, 40.0). *)
Example scenario_first_post :
  get_influxdb_url E_scenario scenario_config =
    Return "db.local:9999/api/v2/write?org=o&bucket=b&precision=ns" /\
  existsb
    (fun ev =>
       match ev with
       | Post url _ data =>
           String.eqb url "db.local:9999/api/v2/write?org=o&bucket=b&precision=ns" &&
           String.eqb data "dht_sensor,sensor_id=esp8266 temperature=21.0,humidity=40.0"
       | _ => false
       end)
    (trace (snd (main E_scenario 1 (boot 0)))) = true.
Proof. split; vm_compute; reflexivity. Qed.

(** ** Further properties of the program *)

(** *** Inverting a run *)

Lemma bind_inv {A B} (m : M A) (k : A -> M B) (w w' : world) (b : B) :
  (m ≫= k) w = (Return b, w') ->
  exists a w1, m w = (Return a, w1) /\ k a w1 = (Return b, w').
Proof.
  unfold mbind, M_bind. destruct (m w) as [[a | e | c] w1]; try discriminate.
  intros H. exists a, w1. split; [reflexivity | exact H].
Qed.

Lemma lift_inv {A} (o : outcome A) (w w' : world) (a : A) :
  lift o w = (Return a, w') -> o = Return a /\ w' = w.
Proof. unfold lift. intros [= -> ->]. split; reflexivity. Qed.

Lemma bind_run {A B} (m : M A) (k : A -> M B) (w : world) :
  (m ≫= k) w =
    match m w with
    | (Return a, w1) => k a w1
    | (Raise e, w1) => (Raise e, w1)
    | (Exit c, w1) => (Exit c, w1)
    end.
Proof. reflexivity. Qed.

(** *** [init_dht_sensor] *)

(** X1.  [init_dht_sensor] returns the handle of the pin when the driver
    accepts it.  A [ValueError] of the driver (of any subclass) is
    replaced by [ValueError("Invalid pin number: <pin>")], an [OSError]
    (of any subclass) by [OSError("Error initializing DHT11 sensor")],
    and an exception of another class is passed on as it is. *)
Theorem init_dht_sensor_translates_errors (E : env) (pin : Z) (w : world) :
  (dht_new E pin = Ans tt ->
     init_dht_sensor E pin w = (Return (Sensor pin), w_emit (SensorInit pin) w)) /\
  (forall e, dht_new E pin = Err e ->
     init_dht_sensor E pin w =
       (Raise (if is_ValueError (exn_cls e) then
                 Exn ValueError ("Invalid pin number: " +:+ str_int pin)
               else if is_OSError (exn_cls e) then
                 Exn OSError "Error initializing DHT11 sensor"
               else e),
        w_emit (SensorInit pin) w)) /\
  (forall e r w', dht_new E pin = Err e ->
     init_dht_sensor E pin w = (r, w') ->
     exists e', r = Raise e' /\
       is_ValueError (exn_cls e') = is_ValueError (exn_cls e) /\
       is_OSError (exn_cls e') = is_OSError (exn_cls e)).
Proof.
  assert (Herr : forall e, dht_new E pin = Err e ->
     init_dht_sensor E pin w =
       (Raise (if is_ValueError (exn_cls e) then
                 Exn ValueError ("Invalid pin number: " +:+ str_int pin)
               else if is_OSError (exn_cls e) then
                 Exn OSError "Error initializing DHT11 sensor"
               else e),
        w_emit (SensorInit pin) w)).
  { intros e He. unfold init_dht_sensor, try_except. run. rewrite He. run.
    destruct (is_ValueError (exn_cls e)); [reflexivity|].
    destruct (is_OSError (exn_cls e)); reflexivity. }
  split; [|split].
  - intros Hok. unfold init_dht_sensor, try_except. run. rewrite Hok. reflexivity.
  - exact Herr.
  - intros e r w' He Hrun. rewrite (Herr e He) in Hrun. injection Hrun as <- _.
    eexists. split; [reflexivity|].
    destruct e as [c msg]. destruct c; simpl; split; reflexivity.
Qed.

(** *** [connect_to_wifi], whatever the link does *)

Section AssociationAnyLink.

Variable E : env.

(** The loop returns a boolean, which is the last answer of
    [wlan.isconnected()]; it never runs past the moment the time since
    [start_time] exceeds [timeout_sec], and it gives up only then. *)
Lemma wait_connected_returns (timeout_sec start_time : Z) (w : world) :
  exists b w',
    wait_connected E timeout_sec start_time w = (Return b, w') /\
    now w <= now w' /\
    now w' - start_time <= Z.max (now w - start_time) (timeout_sec + 1) /\
    (polls w < polls w')%nat /\
    link E (Nat.pred (polls w')) = b /\
    (b = false -> timeout_sec < now w' - start_time).
Proof.
  funelim (wait_connected E timeout_sec start_time w).
  - exists true, (w_polled w). simpl.
    repeat split; try lia; try assumption; discriminate.
  - exists false, (w_emit (Print "Connection timed out.") (w_polled w)). simpl.
    repeat split; try lia; try assumption.
    all: try (intros _; apply Z.ltb_lt; assumption).
  - destruct H as (b & w' & Hrun & Hmono & Hbound & Hpolls & Hlast & Hfalse).
    exists b, w'. rewrite Hrun.
    pose proof (proj1 (Z.ltb_ge _ _) Hle) as Hle'. simpl in *.
    repeat split; try lia; assumption.
Qed.


End AssociationAnyLink.

(** X2.  Whatever the link does, [connect_to_wifi] returns a boolean (it
    neither raises nor hangs), and it returns no later than
    [timeout_sec + 1] seconds after the call (at once when
    [timeout_sec] is below [-1]). *)
Theorem connect_to_wifi_returns_in_time (E : env) (ssid key : pyval)
    (timeout_sec : Z) (w : world) :
  exists b w',
    connect_to_wifi E ssid key timeout_sec w = (Return b, w') /\
    0 <= now w' - now w <= Z.max 0 (timeout_sec + 1).
Proof.
  rewrite connect_to_wifi_unfold. destruct (link E (polls w)).
  - exists true. eexists. split; [reflexivity|]. simpl. lia.
  - match goal with
    | |- context [wait_connected E ?t ?s ?w0] =>
        destruct (wait_connected_returns E t s w0)
          as (b & w' & Hrun & Hmono & Hbound & _)
    end.
    exists b, w'. split; [exact Hrun|]. simpl in *. lia.
Qed.

(** X3.  The boolean [connect_to_wifi] returns is the last answer it got
    from [wlan.isconnected()]; and it returns [False] only after more
    than [timeout_sec] seconds have passed since the call. *)
Theorem connect_to_wifi_reports_link (E : env) (ssid key : pyval)
    (timeout_sec : Z) (w : world) :
  fst (connect_to_wifi E ssid key timeout_sec w) =
    Return (link E (Nat.pred (polls (snd (connect_to_wifi E ssid key timeout_sec w))))) /\
  (fst (connect_to_wifi E ssid key timeout_sec w) = Return false ->
   timeout_sec < now (snd (connect_to_wifi E ssid key timeout_sec w)) - now w).
Proof.
  rewrite connect_to_wifi_unfold. destruct (link E (polls w)) eqn:Hl.
  - simpl. rewrite Hl. split; [reflexivity | discriminate].
  - match goal with
    | |- context [wait_connected E ?t ?s ?w0] =>
        destruct (wait_connected_returns E t s w0)
          as (b & w' & Hrun & _ & _ & _ & Hlast & Hfalse)
    end.
    rewrite Hrun. simpl. rewrite Hlast. split; [reflexivity|].
    intros [= ->]. apply Hfalse. reflexivity.
Qed.



(** *** The endpoint builders *)

(** X5.  [get_influxdb_url] and [set_influxdb_headers] succeed together
    and fail together.  When the configuration is a mapping whose
    [influxdb] value is absent or a mapping, the URL is
    [<host>:<port>/api/v2/write?org=<org>&bucket=<bucket>&precision=ns]
    with [localhost] and [8086] standing in for a missing host and
    port, and the headers are built; in every other case both raise
    [AttributeError]. *)
Theorem endpoint_builders_agree (E : env) (cfg : pyval) :
  match influxdb_section cfg with
  | Some d =>
      get_influxdb_url E cfg =
        Return (py_str E (default (PStr "localhost") (d !! "host")) +:+ ":" +:+
                py_str E (default (PInt 8086) (d !! "port")) +:+
                "/api/v2/write?org=" +:+ py_str E (default PNone (d !! "org")) +:+
                "&bucket=" +:+ py_str E (default PNone (d !! "bucket")) +:+
                "&precision=ns") /\
      exists hs, set_influxdb_headers E cfg = Return hs
  | None =>
      get_influxdb_url E cfg =
        Raise (Exn AttributeError "object has no attribute 'get'") /\
      set_influxdb_headers E cfg =
        Raise (Exn AttributeError "object has no attribute 'get'")
  end.
Proof.
  unfold influxdb_section, get_influxdb_url, set_influxdb_headers.
  destruct cfg as [ | b | z | t | l | m]; try (split; reflexivity).
  simpl. destruct (default (PDict ∅) (m !! "influxdb")) as [ | b | z | t | l | d];
    try (split; reflexivity).
  simpl. split; [reflexivity|]. eexists. reflexivity.
Qed.

(** *** [load_config] and the exceptions it does not name *)

(** X6.  An exception of [open] or of [json.load] that is neither a
    [FileNotFoundError] nor a [JSONDecodeError] leaves [load_config] as
    it is, with nothing printed. *)
Theorem load_config_passes_other_errors (E : env) (config_file : string)
    (w : world) (e : exn) :
  exn_cls e <> FileNotFoundError ->
  exn_cls e <> JSONDecodeError ->
  fs_open E config_file = Err e \/
    (exists f, fs_open E config_file = Ans f /\ json_load E f = Err e) ->
  load_config E config_file w = (Raise e, w).
Proof.
  intros Hnf Hjd Hsrc. unfold load_config, try_except, open_read. run.
  destruct Hsrc as [Ho | (f & Ho & Hj)]; rewrite Ho; run; [|rewrite Hj; run];
    destruct (exn_cls e); try reflexivity; congruence.
Qed.

Lemma load_config_passes_other_errors_witness :
  load_config E_locked "config.json" (boot 0) =
    (Raise (Exn OSError "[Errno 13] Permission denied"), boot 0).
Proof.
  apply (load_config_passes_other_errors E_locked "config.json" (boot 0)
           (Exn OSError "[Errno 13] Permission denied")).
  - discriminate.
  - discriminate.
  - left. reflexivity.
Defined.

(** *** The bootstrap *)

Lemma init_dht_sensor_inv (E : env) (pin : Z) (w w' : world) (h : DHT11) :
  init_dht_sensor E pin w = (Return h, w') -> h = Sensor pin.
Proof.
  unfold init_dht_sensor, try_except. run.
  destruct (dht_new E pin) as [[] | e]; run.
  - intros [= <- _]. reflexivity.
  - destruct (is_ValueError (exn_cls e)); [discriminate|].
    destruct (is_OSError (exn_cls e)); discriminate.
Qed.

(** X7.  A session the bootstrap returns is well formed: its
    configuration is a mapping, its headers and URL are the ones the two
    builders make of that configuration, and its sensor is the one on
    pin 4. *)
Theorem bootstrap_session_well_formed (E : env) (w w' : world) (s : session) :
  bootstrap E w = (Return s, w') ->
  (exists m, config s = PDict m) /\
  set_influxdb_headers E (config s) = Return (headers s) /\
  get_influxdb_url E (config s) = Return (influxdb_url s) /\
  sensor s = Sensor 4.
Proof.
  unfold bootstrap. intros H.
  apply bind_inv in H as (cfg & w1 & _ & H).
  apply bind_inv in H as (wifi_config & w2 & Hwifi & H).
  apply lift_inv in Hwifi as [Hwifi _].
  apply bind_inv in H as (ssid & w3 & _ & H).
  apply bind_inv in H as (key & w4 & _ & H).
  apply bind_inv in H as (connected & w5 & _ & H).
  apply bind_inv in H as (u & w6 & _ & H).
  apply bind_inv in H as (hs & w7 & Hhs & H).
  apply lift_inv in Hhs as [Hhs _].
  apply bind_inv in H as (url & w8 & Hurl & H).
  apply lift_inv in Hurl as [Hurl _].
  apply bind_inv in H as (sen & w9 & Hsen & H).
  apply init_dht_sensor_inv in Hsen.
  injection H as <- _. simpl.
  split; [|split; [exact Hhs | split; [exact Hurl | exact Hsen]]].
  destruct cfg; try discriminate Hwifi. eexists. reflexivity.
Qed.

Lemma bootstrap_session_well_formed_witness :
  set_influxdb_headers E_scenario (config (Session scenario_config
      (<["Authorization" := "Token tok"]>
       (<["Content-Type" := "text/plain; charset=utf-8"]>
       (<["Accept" := "application/json"]> ∅)))
      "db.local:9999/api/v2/write?org=o&bucket=b&precision=ns" (Sensor 4))) =
    Return (<["Authorization" := "Token tok"]>
            (<["Content-Type" := "text/plain; charset=utf-8"]>
            (<["Accept" := "application/json"]> ∅))).
Proof.
  refine (proj1 (proj2 (bootstrap_session_well_formed E_scenario (boot 0)
            (snd (bootstrap E_scenario (boot 0))) _ _))).
  vm_compute. reflexivity.
Defined.

Lemma init_dht_sensor_world (E : env) (pin : Z) (w : world) :
  snd (init_dht_sensor E pin w) = w_emit (SensorInit pin) w.
Proof.
  unfold init_dht_sensor, try_except. run.
  destruct (dht_new E pin) as [[] | e]; run; [reflexivity|].
  destruct (is_ValueError (exn_cls e)); [reflexivity|].
  destruct (is_OSError (exn_cls e)); reflexivity.
Qed.

(** Runs a [lift] at the head of a computation. *)
Ltac lift_step :=
  match goal with
  | |- context [@mbind _ _ _ _ ?k (lift ?o) ?x] => rewrite (bind_lift o k x)
  end.

(** X8.  The bootstrap never samples and never posts, and it touches the
    sensor at most once, as the last thing it does: everything before
    leaves sensor and endpoint alone, and the only event that may
    follow is the initialisation of the sensor on pin 4. *)
Theorem bootstrap_touches_sensor_last (E : env) (w : world) :
  samples (snd (bootstrap E w)) = samples w /\
  posts (snd (bootstrap E w)) = posts w /\
  exists w1, quiet w w1 /\
    (snd (bootstrap E w) = w1 \/ snd (bootstrap E w) = w_emit (SensorInit 4) w1).
Proof.
  set (P := fun r : outcome session * world =>
              exists w1, quiet w w1 /\
                (snd r = w1 \/ snd r = w_emit (SensorInit 4) w1)).
  assert (Hstop : forall (o : outcome session) w1, quiet w w1 -> P (o, w1)).
  { intros o w1 Hq. exists w1. split; [exact Hq | left; reflexivity]. }
  assert (Hmain : P (bootstrap E w)).
  { unfold bootstrap. rewrite bind_run.
    pose proof (load_config_quiet E "config.json" w) as Hq1.
    destruct (load_config E "config.json" w) as [[cfg | e | c] w1];
      simpl in Hq1; cbv beta iota; try (apply Hstop; exact Hq1).
    lift_step.
    destruct (py_get cfg "wifi" (PDict ∅)) as [wifi_config | e | c];
      cbv beta iota; try (apply Hstop; exact Hq1).
    lift_step.
    destruct (py_get wifi_config "ssid" PNone) as [ssid | e | c];
      cbv beta iota; try (apply Hstop; exact Hq1).
    lift_step.
    destruct (py_get wifi_config "key" PNone) as [key | e | c];
      cbv beta iota; try (apply Hstop; exact Hq1).
    rewrite bind_run.
    pose proof (connect_to_wifi_quiet E ssid key timeout_sec_default w1) as Hq2.
    destruct (connect_to_wifi E ssid key timeout_sec_default w1)
      as [[connected | e | c] w2]; simpl in Hq2;
      pose proof (quiet_trans _ _ _ Hq1 Hq2) as Hq;
      cbv beta iota; try (apply Hstop; exact Hq).
    destruct connected.
    - set (w3 := w_emit (Print ("Network config: " +:+ ifconfig E))
                   (w_emit (Print "WiFi connected successfully.") w2)).
      assert (Hq3 : quiet w w3).
      { apply quiet_emit; [reflexivity|]. apply quiet_emit; [reflexivity|]. exact Hq. }
      rewrite bind_run.
      match goal with
      | |- P (let (_, _) := ?r in _) => change r with (@Return unit tt, w3)
      end.
      cbv beta iota. lift_step.
      destruct (set_influxdb_headers E cfg) as [hs | e | c];
        cbv beta iota; try (apply Hstop; exact Hq3).
      lift_step.
      destruct (get_influxdb_url E cfg) as [url | e | c];
        cbv beta iota; try (apply Hstop; exact Hq3).
      rewrite bind_run.
      pose proof (init_dht_sensor_world E 4 w3) as Hw.
      destruct (init_dht_sensor E 4 w3) as [[h | e | c] w4]; simpl in Hw;
        exists w3; (split; [exact Hq3 | right; exact Hw]).
    - rewrite bind_run.
      match goal with
      | |- P (let (_, _) := ?r in _) =>
          change r
            with (@Exit unit 1, w_emit (Print "Failed to connect to WiFi. Exiting...") w2)
      end.
      cbv beta iota. apply Hstop.
      apply quiet_emit; [reflexivity | exact Hq]. }
  destruct Hmain as (w1 & Hq & Hend).
  assert (Hs : samples (snd (bootstrap E w)) = samples w /\
               posts (snd (bootstrap E w)) = posts w).
  { destruct Hq as (Hs & Hp & _). destruct Hend as [-> | ->]; simpl; split; assumption. }
  split; [apply Hs|]. split; [apply Hs|].
  exists w1. split; assumption.
Qed.

(** *** The rounds of the main loop, whatever the surroundings do *)

Section AnyRound.

Variable E : env.
Variable s : session.

(** [pause] sleeps, for a time that is not negative, or raises without
    having done anything. *)
Lemma pause_shape (w : world) :
  (exists e, pause s w = (Raise e, w)) \/
  (exists d, 0 <= d /\ pause s w = (Return tt, w_sleep d w)).
Proof.
  unfold pause. rewrite bind_lift.
  destruct (config s) as [ | b | z | t | l | m]; simpl;
    try (left; eexists; reflexivity).
  destruct (default (PInt DEFAULT_WAIT_TIME) (m !! "reading_wait_time"))
    as [ | b | z | t | l | m']; simpl; try (left; eexists; reflexivity).
  - right. exists (if b then 1 else 0). split; [destruct b; lia | reflexivity].
  - destruct (z <? 0) eqn:Hz.
    + left. eexists. reflexivity.
    + right. exists z. apply Z.ltb_ge in Hz. split; [exact Hz | reflexivity].
Qed.

(** The first half of the loop body, in every case. *)
Lemma sample_and_send_shape (w : world) :
  match sampling_failure (dht E (samples w)) with
  | Some e =>
      sample_and_send E s w =
        if is_OSError (exn_cls e) then
          (Return tt,
           w_emit (Print ("Error reading DHT11 sensor: " +:+ exn_msg e))
             (w_failed (dht E (samples w)) w))
        else (Raise e, w_failed (dht E (samples w)) w)
  | None =>
      exists t h,
        dht E (samples w) = Measurement (Ans tt) (Ans t) (Ans h) /\
        sample_and_send E s w =
          match http E (posts w) with
          | Ans r =>
              (Return tt,
               w_delivered (influxdb_url s) (headers s) (format_data t h) r
                 (w_emit (Print ("Data: " +:+ format_data t h)) (w_measured w)))
          | Err e =>
              (Raise e,
               w_posted (influxdb_url s) (headers s) (format_data t h)
                 (w_emit (Print ("Data: " +:+ format_data t h)) (w_measured w)))
          end
  end.
Proof.
  destruct (sampling_failure (dht E (samples w))) as [e|] eqn:Hf.
  - destruct (is_OSError (exn_cls e)) eqn:Hos.
    + apply sample_and_send_sampling_failed; assumption.
    + unfold sample_and_send. apply bind_Raise.
      rewrite (sample_failure E (sensor s) w e Hf), Hos. reflexivity.
  - destruct (sampling_failure_None _ Hf) as (t & h & Hm).
    exists t, h. split; [exact Hm|].
    destruct (http E (posts w)) as [r | e] eqn:Hr.
    + apply sample_and_send_delivered; assumption.
    + apply sample_and_send_transport_error; assumption.
Qed.

(** A round ends where its first half ends, or a sleep later. *)
Lemma cycle_snd (w : world) :
  snd (cycle E s w) = snd (sample_and_send E s w) \/
  exists d, 0 <= d /\ snd (cycle E s w) = w_sleep d (snd (sample_and_send E s w)).
Proof.
  unfold cycle. rewrite bind_run.
  destruct (sample_and_send E s w) as [[[] | e | c] w1]; simpl;
    [|left; reflexivity|left; reflexivity].
  destruct (pause_shape w1) as [(e & ->) | (d & Hd & ->)].
  - left. reflexivity.
  - right. exists d. split; [exact Hd | reflexivity].
Qed.

Lemma w_failed_posts (m : measurement) (w : world) :
  posts (w_failed m w) = posts w.
Proof. unfold w_failed. destruct (on_measure m), (on_temperature m); reflexivity. Qed.

Lemma w_delivered_posts (url : string) (hs : gmap string string) (data : string)
    (r : response) (w : world) :
  posts (w_delivered url hs data r w) = S (posts w).
Proof. unfold w_delivered. destruct (status_code r =? 204); reflexivity. Qed.

(** Every round samples once, and posts once exactly when the sampling
    went through. *)
Lemma cycle_counts (w : world) :
  samples (snd (cycle E s w)) = S (samples w) /\
  posts (snd (cycle E s w)) =
    (posts w + match sampling_failure (dht E (samples w)) with
               | Some _ => 0
               | None => 1
               end)%nat.
Proof.
  assert (H1 : samples (snd (sample_and_send E s w)) = S (samples w) /\
               posts (snd (sample_and_send E s w)) =
                 (posts w + match sampling_failure (dht E (samples w)) with
                            | Some _ => 0
                            | None => 1
                            end)%nat).
  { pose proof (sample_and_send_shape w) as Hs.
    destruct (sampling_failure (dht E (samples w))) as [e|].
    - rewrite Hs. destruct (is_OSError (exn_cls e)); simpl;
        rewrite w_failed_samples, w_failed_posts; split; lia.
    - destruct Hs as (t & h & _ & ->).
      destruct (http E (posts w)) as [r | e]; simpl.
      + rewrite w_delivered_samples, w_delivered_posts. simpl. split; lia.
      + split; lia. }
  destruct (cycle_snd w) as [-> | (d & _ & ->)]; exact H1.
Qed.

(** Every delivery of a round goes to the endpoint of the session. *)
Lemma cycle_events (w : world) :
  exists added,
    trace (snd (cycle E s w)) = (trace w ++ added)%list /\
    Forall (to_session_endpoint s) added.
Proof.
  assert (H1 : exists added,
    trace (snd (sample_and_send E s w)) = (trace w ++ added)%list /\
    Forall (to_session_endpoint s) added).
  { pose proof (sample_and_send_shape w) as Hs.
    destruct (sampling_failure (dht E (samples w))) as [e|].
    - rewrite Hs. unfold w_failed.
      destruct (is_OSError (exn_cls e)), (on_measure (dht E (samples w))),
        (on_temperature (dht E (samples w)));
        simpl; rewrite <- ?app_assoc; eexists; (split; [reflexivity|]);
        repeat constructor.
    - destruct Hs as (t & h & _ & ->).
      destruct (http E (posts w)) as [r | e]; simpl.
      + unfold w_delivered. destruct (status_code r =? 204); simpl;
          rewrite <- ?app_assoc; eexists; (split; [reflexivity|]);
          repeat constructor; simpl; try exact I;
          repeat split; exists t, h; reflexivity.
      + rewrite <- ?app_assoc. eexists. split; [reflexivity|].
        repeat constructor; simpl; try exact I.
        repeat split. exists t, h. reflexivity. }
  destruct H1 as (added & Htr & Hall).
  destruct (cycle_snd w) as [-> | (d & _ & ->)].
  - exists added. split; assumption.
  - exists (added ++ [Sleep d])%list. split.
    + simpl. rewrite Htr, <- app_assoc. reflexivity.
    + apply Forall_app. split; [exact Hall|]. repeat constructor.
Qed.

End AnyRound.

(** X9.  Whatever the surroundings do, the main loop samples once per
    round and never posts more often than it samples: after the first
    [n] rounds (or fewer, when the loop was left) at most [n] samplings
    were made, exactly [n] when the loop is still running, and the
    number of posts is at most the number of samplings. *)
Theorem steady_one_sample_per_round (E : env) (s : session) (n : nat) (w : world) :
  (samples w <= samples (snd (steady E n s w)) <= samples w + n)%nat /\
  (posts w <= posts (snd (steady E n s w)))%nat /\
  (posts (snd (steady E n s w)) - posts w <=
     samples (snd (steady E n s w)) - samples w)%nat /\
  (fst (steady E n s w) = Return tt ->
     samples (snd (steady E n s w)) = (samples w + n)%nat).
Proof.
  revert w. induction n as [|n IH]; intros w.
  - simpl. repeat split; lia.
  - simpl. rewrite bind_run.
    destruct (cycle_counts E s w) as [Hs Hp].
    assert (Hp' : (posts w <= posts (snd (cycle E s w)) <= S (posts w))%nat)
      by (rewrite Hp; destruct (sampling_failure _); lia).
    destruct (cycle E s w) as [[[] | e | c] w1]; simpl in *.
    + destruct (IH w1) as (H1 & H2 & H3 & H4).
      repeat split; try lia. intros Hr. rewrite (H4 Hr). lia.
    + repeat split; try lia. discriminate.
    + repeat split; try lia. discriminate.
Qed.

(** X10.  Every delivery the main loop makes goes to the URL of the
    session, with the headers of the session, and carries the line of a
    reading: the endpoint is fixed once the bootstrap is over. *)
Theorem steady_posts_to_session_endpoint (E : env) (s : session) (n : nat)
    (w : world) :
  exists added,
    trace (snd (steady E n s w)) = (trace w ++ added)%list /\
    Forall (to_session_endpoint s) added.
Proof.
  revert w. induction n as [|n IH]; intros w.
  - exists []. simpl. rewrite app_nil_r. split; [reflexivity | constructor].
  - simpl. rewrite bind_run.
    destruct (cycle_events E s w) as (a1 & Ht1 & Hall1).
    destruct (cycle E s w) as [[[] | e | c] w1]; simpl in *;
      try (exists a1; split; assumption).
    destruct (IH w1) as (a2 & Ht2 & Hall2).
    exists (a1 ++ a2)%list. split.
    + rewrite Ht2, Ht1, <- app_assoc. reflexivity.
    + apply Forall_app. split; assumption.
Qed.

(** X11.  A [reading_wait_time] that [time.sleep] does not accept (a
    negative number, or a value that is not a number) ends the loop in
    its first round: the round samples (and delivers, if it can), then
    an exception leaves the loop, and no second sampling happens. *)
Theorem steady_stops_on_invalid_wait_time (E : env) (s : session) (n : nat)
    (w : world) :
  wait_seconds (config s) = None ->
  (exists e, fst (steady E (S n) s w) = Raise e) /\
  samples (snd (steady E (S n) s w)) = S (samples w).
Proof.
  intros Hw.
  assert (Hpause : forall w1, exists e, pause s w1 = (Raise e, w1)).
  { intros w1. destruct (pause_shape s w1) as [He | (d & Hd & Hrun)]; [exact He|].
    exfalso. unfold wait_seconds in Hw. unfold pause in Hrun. rewrite bind_lift in Hrun.
    destruct (py_get (config s) "reading_wait_time" (PInt DEFAULT_WAIT_TIME))
      as [v | e | c]; try discriminate.
    destruct v as [ | b | z | t | l | m]; try discriminate.
    unfold time_sleep in Hrun. destruct (z <? 0); discriminate. }
  assert (Hcycle : exists e w1, cycle E s w = (Raise e, w1)).
  { unfold cycle. rewrite bind_run.
    pose proof (sample_and_send_shape E s w) as Hs.
    destruct (sampling_failure (dht E (samples w))) as [e|].
    - rewrite Hs. destruct (is_OSError (exn_cls e)).
      + destruct (Hpause (w_emit (Print ("Error reading DHT11 sensor: " +:+ exn_msg e))
                            (w_failed (dht E (samples w)) w))) as (e' & ->).
        eexists. eexists. reflexivity.
      + eexists. eexists. reflexivity.
    - destruct Hs as (t & h & _ & ->).
      destruct (http E (posts w)) as [r | e].
      + match goal with
        | |- context [pause s ?w1] => destruct (Hpause w1) as (e' & ->)
        end.
        eexists. eexists. reflexivity.
      + eexists. eexists. reflexivity. }
  destruct Hcycle as (e & w1 & Hc).
  pose proof (proj1 (cycle_counts E s w)) as Hs. rewrite Hc in Hs.
  simpl. rewrite (bind_Raise _ _ _ _ _ Hc). simpl in *.
  split; [exists e; reflexivity | exact Hs].
Qed.

Lemma steady_stops_on_invalid_wait_time_witness :
  (exists e, fst (steady E_scenario 3 stuck_session (boot 0)) = Raise e) /\
  samples (snd (steady E_scenario 3 stuck_session (boot 0))) = 1%nat.
Proof.
  apply (steady_stops_on_invalid_wait_time E_scenario stuck_session 2 (boot 0)).
  reflexivity.
Defined.

(** *** The cadence of the loop *)







(** *** The rendering of a reading *)

(** X13.  A reading that is a whole number, which is what the DHT11
    delivers, is rendered as that number followed by [.0]. *)
Theorem format_1f_whole_number (neg : bool) (m : positive) (e : Z) (n : Z) :
  (0 <= e /\ n = Z.pos m * 2 ^ e) \/ (e < 0 /\ Z.pos m = n * 2 ^ (- e)) ->
  format_1f (S754_finite neg m e) =
    (if neg then "-" else "") +:+ str_N (Z.to_N n) +:+ ".0".
Proof.
  intros Hn.
  assert (Ht : tenths m e = 10 * n).
  { unfold tenths. destruct Hn as [[He ->] | [He Hm]].
    - apply Z.leb_le in He. rewrite He. lia.
    - assert (Hlt : (0 <=? e) = false) by (apply Z.leb_gt; exact He).
      rewrite Hlt. unfold round_half_even.
      assert (Hden : 0 < 2 ^ (- e)) by (apply Z.pow_pos_nonneg; lia).
      rewrite Hm.
      replace (10 * (n * 2 ^ (- e))) with (10 * n * 2 ^ (- e)) by lia.
      rewrite Z.div_mul, Z.mod_mul by lia.
      replace (2 * 0 ?= 2 ^ (- e)) with Lt
        by (symmetry; apply Z.compare_lt_iff; lia).
      reflexivity. }
  unfold format_1f, fixed1. rewrite Ht.
  replace (10 * n / 10) with n by (rewrite Z.mul_comm, Z.div_mul; lia).
  replace ((10 * n) mod 10) with 0 by (rewrite Z.mul_comm, Z.mod_mul; lia).
  reflexivity.
Qed.

Lemma format_1f_whole_number_witness :
  format_1f f21_0 = "21.0".
Proof.
  apply (format_1f_whole_number false 5910974510923776 (-48) 21).
  right. split; [lia | reflexivity].
Defined.

(** X14.  The tenths a finite reading [m * 2^e] is rendered with are at
    most half a tenth away from it (the rendered number differs from
    the reading by at most 0.05), and a reading half-way between two
    tenths goes to the even one. *)
Theorem tenths_nearest (m : positive) (e : Z) :
  (0 <= e -> tenths m e = 10 * Z.pos m * 2 ^ e) /\
  (e < 0 ->
     2 * Z.abs (10 * Z.pos m - tenths m e * 2 ^ (- e)) <= 2 ^ (- e) /\
     (2 * Z.abs (10 * Z.pos m - tenths m e * 2 ^ (- e)) = 2 ^ (- e) ->
      Z.even (tenths m e) = true)).
Proof.
  unfold tenths. split.
  - intros He. apply Z.leb_le in He. rewrite He. reflexivity.
  - intros He.
    assert (Hlt : (0 <=? e) = false) by (apply Z.leb_gt; exact He).
    rewrite Hlt. unfold round_half_even.
    assert (Hden : 0 < 2 ^ (- e)) by (apply Z.pow_pos_nonneg; lia).
    pose proof (Z.div_mod (10 * Z.pos m) (2 ^ (- e)) ltac:(lia)) as Hdm.
    pose proof (Z.mod_pos_bound (10 * Z.pos m) (2 ^ (- e)) Hden) as Hr.
    set (den := 2 ^ (- e)) in *.
    set (q := 10 * Z.pos m / den) in *.
    set (r := (10 * Z.pos m) mod den) in *.
    destruct (Z.compare_spec (2 * r) den) as [Heq | Hlt2 | Hgt2].
    + destruct (Z.even q) eqn:Hev.
      * split; [nia|]. intros _. exact Hev.
      * split; [nia|]. intros _.
        rewrite Z.even_add, Hev. reflexivity.
    + split; [nia | intros Htie; nia].
    + split; [nia | intros Htie; nia].
Qed.
